(** * Hybrid course retrieval: a shallow embedding of [retriever.py] and
    [indexer.py] (services [RAG] and [information-retrieval])

    The two services carry the same retrieval engine twice.  The embedding
    follows the Python text: a retriever method is a computation over the
    retriever object [self] that may raise; NumPy arrays of scores are lists
    of exact rationals; Python lists are lists; the metadata dictionaries
    are finite maps with string keys.

    External capabilities ([TfidfVectorizer.transform],
    [SentenceTransformer.encode], [cosine_similarity], [json.dumps]) are not
    part of the repository.  The vectorizer and the encoder are fields of
    the index, as in the source; one entry of the cosine-similarity matrix and
    the JSON printer are section variables. *)

From Stdlib Require Import ZArith QArith Qcanon List String Lia.
From stdpp Require Import base strings gmap list numbers.

Open Scope Z_scope.
Open Scope string_scope.

(** ** Python values and exceptions *)

(** The exceptions the modelled code can raise. *)
Inductive exception :=
| ValueError (msg : string)
| IndexError
| KeyError (key : string).

(** The outcome of running a piece of Python: a value or a raised
    exception. *)
Inductive outcome (A : Type) :=
| Ok (a : A)
| Raise (e : exception).
Arguments Ok {A} a.
Arguments Raise {A} e.

Definition obind {A B} (o : outcome A) (k : A -> outcome B) : outcome B :=
  match o with
  | Ok a => k a
  | Raise e => Raise e
  end.

(** The flat [fields] object of a catalog record (teacher, ECTS, ...), in
    insertion order. *)
Definition fields_t := list (string * string).

(** Values stored in the metadata and result dictionaries. *)
Inductive value :=
| VStr (s : string)
| VFields (f : fields_t)
| VFloat (x : Qc).

#[global] Instance value_eq_dec : EqDecision value.
Proof. solve_decision. Defined.

#[global] Instance Qc_inhabited : Inhabited Qc := populate 0%Qc.

(** [l[i]] for a non-negative index. *)
Definition getitem {A} (l : list A) (i : nat) : outcome A :=
  match l !! i with
  | Some x => Ok x
  | None => Raise IndexError
  end.

(** [d[k]] on a dictionary. *)
Definition dict_getitem (d : gmap string value) (k : string) : outcome value :=
  match d !! k with
  | Some v => Ok v
  | None => Raise (KeyError k)
  end.

(** [d.get(k, dflt)]. *)
Definition dict_get (d : gmap string value) (k : string) (dflt : value) : value :=
  default dflt (d !! k).

(** [l.index(x)]: the first position of [x], [None] standing for the
    [ValueError] of an absent element. *)
Fixpoint list_index (x : string) (l : list string) : option nat :=
  match l with
  | [] => None
  | y :: l' => if decide (y = x) then Some 0%nat else S <$> list_index x l'
  end.

(** One bound of a slice over a sequence of length [len]: a negative bound
    counts from the end, and every bound is clamped into [0..len]. *)
Definition slice_bound (len : nat) (i : Z) : nat :=
  if decide (i < 0) then Z.to_nat (Z.max 0 (i + Z.of_nat len))
  else Nat.min (Z.to_nat i) len.

(** [l[start:stop]]. *)
Definition slice {A} (start stop : Z) (l : list A) : list A :=
  let lo := slice_bound (length l) start in
  let hi := slice_bound (length l) stop in
  take (hi - lo) (drop lo l).

(** ** NumPy on one-dimensional score arrays *)

Module np.

(** [a * xs] for a Python scalar [a]. *)
Definition scale (a : Qc) (xs : list Qc) : list Qc :=
  map (fun x => (a * x)%Qc) xs.

(** [xs + ys] with NumPy broadcasting: equal shapes add elementwise, a
    one-element array is stretched, any other pair of shapes raises. *)
Definition add (xs ys : list Qc) : outcome (list Qc) :=
  if decide (length xs = length ys) then
    Ok (zip_with Qcplus xs ys)
  else match xs, ys with
       | [x], _ => Ok (map (fun y => (x + y)%Qc) ys)
       | _, [y] => Ok (map (fun x => (x + y)%Qc) xs)
       | _, _ => Raise (ValueError "operands could not be broadcast together")
       end.

(** Insertion of index [i] in front of the first index of [l] whose score
    is not smaller. *)
Fixpoint insert_index (xs : list Qc) (i : nat) (l : list nat) : list nat :=
  match l with
  | [] => [i]
  | j :: l' =>
      if bool_decide (xs !!! i ≤ xs !!! j)%Qc then i :: j :: l'
      else j :: insert_index xs i l'
  end.

(** [np.argsort(xs)]: the indices of [xs] in ascending order of score.
    Equal scores keep index order, which is what NumPy's sort does on
    short arrays (insertion sort) and what [kind='stable'] specifies. *)
Definition argsort (xs : list Qc) : list nat :=
  foldr (insert_index xs) [] (seq 0 (length xs)).

End np.

(** ** The index and the retriever state *)

Definition vector := list Qc.

(** The dictionary returned by [build_all_indices], which the retriever
    copies field by field into [self].  [tfidf_vectorizer] stands for
    [transform] on a one-text batch and [model] for [encode] on a one-text
    batch; both return one row. *)
Record index := {
  texts : list string;
  metadata : list (gmap string value);
  course_codes : list string;
  tfidf_vectorizer : string -> vector;
  tfidf_matrix : list vector;
  model : string -> vector;
  embeddings : list vector
}.

(** Calls into the vector libraries, recorded in the order they happen. *)
Inductive vector_op :=
| Transform (text : string)
| Encode (text : string)
| CosineSimilarity.

(** What a method can read and touch: the retriever object and the trace
    of vector work done so far. *)
Record world := {
  self : index;
  vector_work : list vector_op
}.

(** A method body: from the world before to an outcome and the world
    after. *)
Definition M (A : Type) : Type := world -> outcome A * world.

#[global] Instance M_ret : MRet M := fun A a w => (Ok a, w).

#[global] Instance M_bind : MBind M := fun A B k m w =>
  match m w with
  | (Ok a, w') => k a w'
  | (Raise e, w') => (Raise e, w')
  end.

(** [raise e]. *)
Definition raise {A} (e : exception) : M A := fun w => (Raise e, w).

(** An expression that may raise but touches nothing. *)
Definition lift {A} (o : outcome A) : M A := fun w => (o, w).

(** [self.f]. *)
Definition read {A} (f : index -> A) : M A := fun w => (Ok (f (self w)), w).

(** A call into a vector library returning [a]. *)
Definition call {A} (op : vector_op) (a : A) : M A := fun w =>
  (Ok a, {| self := self w; vector_work := (vector_work w ++ [op])%list |}).

(** [for x in xs: results.append(body(x))], then [results]. *)
Fixpoint for_each {A B} (body : A -> M B) (xs : list A) : M (list B) :=
  match xs with
  | [] => mret []
  | x :: xs' => r ← body x; rs ← for_each body xs'; mret (r :: rs)
  end.

(** The two services; they differ in the name of the identifier key and in
    the [fields] entry of a result. *)
Inductive service := RAG | InformationRetrieval.

Definition id_key (sv : service) : string :=
  match sv with
  | RAG => "course_code"
  | InformationRetrieval => "course_id"
  end.

(** ** [sklearn.metrics.pairwise.cosine_similarity] *)

(** [cosine_similarity(X, Y)], given the similarity of one row with one
    row: entry [(i, j)] compares row [i] of [X] with row [j] of [Y]. *)
Definition cosine_similarity (cosine : vector -> vector -> Qc)
    (X Y : list vector) : list (list Qc) :=
  map (fun x => map (cosine x) Y) X.

(** [a.flatten()] on a two-dimensional array. *)
Definition flatten (a : list (list Qc)) : list Qc := concat a.

(** ** [retriever.py]: class [CourseRetriever] *)

Module CourseRetriever.
Section Methods.

Variable cosine : vector -> vector -> Qc.
Variable sv : service.

(** [_sparse_search(self, query)]. *)
Definition _sparse_search (query : string) : M (list Qc) :=
  vectorizer ← read tfidf_vectorizer;
  query_vector ← call (Transform query) (vectorizer query);
  matrix ← read tfidf_matrix;
  similarities ←
    call CosineSimilarity (flatten (cosine_similarity cosine [query_vector] matrix));
  mret similarities.

(** [_dense_search(self, query)]. *)
Definition _dense_search (query : string) : M (list Qc) :=
  encoder ← read model;
  query_embedding ← call (Encode query) (encoder query);
  emb ← read embeddings;
  similarities ←
    call CosineSimilarity (flatten (cosine_similarity cosine [query_embedding] emb));
  mret similarities.

(** The dictionary appended to [results] for index [idx]; the entries are
    evaluated in the order they are written. *)
Definition result_entry (scores : list Qc) (idx : nat) : M (gmap string value) :=
  codes ← read course_codes;
  code ← lift (getitem codes idx);
  meta ← read metadata;
  m ← lift (getitem meta idx);
  title ← lift (dict_getitem m "title");
  score ← lift (getitem scores idx);
  match sv with
  | RAG =>
      meta' ← read metadata;
      m' ← lift (getitem meta' idx);
      mret ({[ "course_code" := VStr code; "title" := title;
               "score" := VFloat score;
               "fields" := dict_get m' "fields" (VFields []) ]}
            : gmap string value)
  | InformationRetrieval =>
      mret ({[ "course_id" := VStr code; "title" := title;
               "score" := VFloat score ]} : gmap string value)
  end.

(** [search(self, query, mode, top_k, alpha)]. *)
Definition search (query mode : string) (top_k : Z) (alpha : Qc)
    : M (list (gmap string value)) :=
  scores ←
    (if decide (mode = "sparse") then _sparse_search query
     else if decide (mode = "dense") then _dense_search query
     else if decide (mode = "hybrid") then
       sparse_scores ← _sparse_search query;
       dense_scores ← _dense_search query;
       lift (np.add (np.scale alpha dense_scores)
                    (np.scale (1 - alpha)%Qc sparse_scores))
     else raise (ValueError ("Invalid mode: " ++ mode)));
  let top_indices := slice 0 top_k (reverse (np.argsort scores)) in
  for_each (result_entry scores) top_indices.

(** [find_similar(self, course_code, mode, top_k, alpha)]. *)
Definition find_similar (course_code mode : string) (top_k : Z) (alpha : Qc)
    : M (list (gmap string value)) :=
  codes ← read course_codes;
  match list_index course_code codes with
  | None => mret []
  | Some query_idx =>
      similarities ←
        (if decide (mode = "sparse") then
           matrix ← read tfidf_matrix;
           query_vector ← lift (getitem matrix query_idx);
           matrix' ← read tfidf_matrix;
           call CosineSimilarity
             (flatten (cosine_similarity cosine [query_vector] matrix'))
         else if decide (mode = "dense") then
           emb ← read embeddings;
           query_embedding ← lift (getitem emb query_idx);
           emb' ← read embeddings;
           call CosineSimilarity
             (flatten (cosine_similarity cosine [query_embedding] emb'))
         else if decide (mode = "hybrid") then
           matrix ← read tfidf_matrix;
           query_vector ← lift (getitem matrix query_idx);
           matrix' ← read tfidf_matrix;
           sparse_sim ←
             call CosineSimilarity
               (flatten (cosine_similarity cosine [query_vector] matrix'));
           emb ← read embeddings;
           query_embedding ← lift (getitem emb query_idx);
           emb' ← read embeddings;
           dense_sim ←
             call CosineSimilarity
               (flatten (cosine_similarity cosine [query_embedding] emb'));
           lift (np.add (np.scale alpha dense_sim)
                        (np.scale (1 - alpha)%Qc sparse_sim))
         else raise (ValueError ("Invalid mode: " ++ mode)));
      let top_indices :=
        slice 1 (top_k + 1) (reverse (np.argsort similarities)) in
      for_each (result_entry similarities) top_indices
  end.

End Methods.
End CourseRetriever.

(** ** [retriever.py] of [information-retrieval]: class [ObjectiveRetriever] *)

Module ObjectiveRetriever.
Section Methods.

Variable cosine : vector -> vector -> Qc.

(** [_sparse_search(self, query)]. *)
Definition _sparse_search (query : string) : M (list Qc) :=
  vectorizer ← read tfidf_vectorizer;
  query_vector ← call (Transform query) (vectorizer query);
  matrix ← read tfidf_matrix;
  similarities ←
    call CosineSimilarity (flatten (cosine_similarity cosine [query_vector] matrix));
  mret similarities.

(** [_dense_search(self, query)]. *)
Definition _dense_search (query : string) : M (list Qc) :=
  encoder ← read model;
  query_embedding ← call (Encode query) (encoder query);
  emb ← read embeddings;
  similarities ←
    call CosineSimilarity (flatten (cosine_similarity cosine [query_embedding] emb));
  mret similarities.

(** The dictionary appended to [results] for index [idx]. *)
Definition result_entry (scores : list Qc) (idx : nat) : M (gmap string value) :=
  metas ← read metadata;
  meta ← lift (getitem metas idx);
  course_id ← lift (dict_getitem meta "course_id");
  title ← lift (dict_getitem meta "title");
  objective ← lift (dict_getitem meta "objective");
  score ← lift (getitem scores idx);
  mret ({[ "course_id" := course_id; "title" := title;
           "objective" := objective; "score" := VFloat score ]}
        : gmap string value).

(** [search(self, query, mode, top_k, alpha)]. *)
Definition search (query mode : string) (top_k : Z) (alpha : Qc)
    : M (list (gmap string value)) :=
  scores ←
    (if decide (mode = "sparse") then _sparse_search query
     else if decide (mode = "dense") then _dense_search query
     else if decide (mode = "hybrid") then
       sparse_scores ← _sparse_search query;
       dense_scores ← _dense_search query;
       lift (np.add (np.scale alpha dense_scores)
                    (np.scale (1 - alpha)%Qc sparse_scores))
     else raise (ValueError ("Invalid mode: " ++ mode)));
  let top_indices := slice 0 top_k (reverse (np.argsort scores)) in
  for_each (result_entry scores) top_indices.

End Methods.
End ObjectiveRetriever.

(** ** [indexer.py] of [RAG]: the document builder over JSONL records *)

(** The line feed of ['\n'.join(...)]. *)
Definition nl : string := String (Ascii.ascii_of_nat 10) EmptyString.

(** [k in d] and [d[k]] on a [fields] object: the value stored under [k],
    if any. *)
Fixpoint fields_lookup (k : string) (d : fields_t) : option string :=
  match d with
  | [] => None
  | (k', v) :: d' => if decide (k' = k) then Some v else fields_lookup k d'
  end.

Module RAG_indexer.

(** One raw catalog record.  Every key may be missing ([None]); a key that
    is present carries the type the catalog gives it. *)
Record course := {
  course_code : option string;
  title : option string;
  fields : option fields_t;
  learning_objectives : option (list string);
  content : option string
}.

Section Build.

Variable json_dumps : fields_t -> string.

(** [build_course_text(course)]. *)
Definition build_course_text (c : course) : string :=
  let parts : list string := [] in
  let parts := (parts ++ [default "" (title c)])%list in
  let fields := default [] (fields c) in
  let parts :=
    if decide (fields = []) then parts
    else
      let parts :=
        match fields_lookup "Responsible" fields with
        | Some teacher => (parts ++ [("Taught by " ++ teacher)%string])%list
        | None => parts
        end in
      (parts ++ [json_dumps fields])%list in
  let objectives := default [] (learning_objectives c) in
  let parts :=
    if decide (objectives = []) then parts
    else (parts ++ [String.concat " " objectives])%list in
  let content := default "" (content c) in
  let parts :=
    if decide (content = "") then parts
    else (parts ++ [substring 0 2000 content])%list in
  String.concat nl parts.

(** [build_course_documents(courses)]: one pass over the records, appending
    to the three parallel lists. *)
Definition build_course_documents (courses : list course)
    : list string * list (gmap string value) * list string :=
  foldl (fun '(texts, metadata, course_codes) c =>
           let text := build_course_text c in
           ((texts ++ [text])%list,
            (metadata ++ [ ({[ "course_code" := VStr (default "" (course_code c));
                              "title" := VStr (default "" (title c));
                              "fields" := VFields (default [] (fields c)) ]}
                           : gmap string value) ])%list,
            (course_codes ++ [default "" (course_code c)])%list))
        ([], [], []) courses.

End Build.
End RAG_indexer.

(** ** [indexer.py] of [information-retrieval]: the document builder over
    the JSON catalog *)

Module IR_indexer.

(** The record stored under a course identifier; keys ['title'] and
    ['learning-objectives'], either of which may be missing. *)
Record course_data := {
  title : option string;
  learning_objectives : option (list string)
}.

(** [course_data[key]] on a key that may be missing. *)
Definition subscript {A} (field : option A) (key : string) : outcome A :=
  match field with
  | Some v => Ok v
  | None => Raise (KeyError key)
  end.

(** [build_course_documents(courses)]; [courses.items()] yields the pairs
    in insertion order. *)
Fixpoint build_course_documents_loop (items : list (string * course_data))
    (acc : list string * list (gmap string value) * list string)
    : outcome (list string * list (gmap string value) * list string) :=
  match items with
  | [] => Ok acc
  | (course_id, cd) :: items' =>
      let '(texts, metadata, course_ids) := acc in
      obind (subscript (title cd) "title") (fun title =>
      obind (subscript (learning_objectives cd) "learning-objectives")
        (fun objectives =>
      let text := title ++ nl ++ String.concat nl objectives in
      build_course_documents_loop items'
        ((texts ++ [text])%list,
         (metadata ++ [ ({[ "course_id" := VStr course_id;
                            "title" := VStr title ]} : gmap string value) ])%list,
         (course_ids ++ [course_id])%list)))
  end.

Definition build_course_documents (courses : list (string * course_data))
    : outcome (list string * list (gmap string value) * list string) :=
  build_course_documents_loop courses ([], [], []).

(** The inner loop of [build_objective_documents]: one document per
    learning objective. *)
Definition objective_documents (course_id title : string)
    (objectives : list string)
    (acc : list string * list (gmap string value))
    : list string * list (gmap string value) :=
  foldl (fun '(texts, metadata) objective =>
           let text := title ++ " - " ++ objective in
           ((texts ++ [text])%list,
            (metadata ++ [ ({[ "course_id" := VStr course_id;
                               "title" := VStr title;
                               "objective" := VStr objective ]}
                            : gmap string value) ])%list))
        acc objectives.

Fixpoint build_objective_documents_loop (items : list (string * course_data))
    (acc : list string * list (gmap string value))
    : outcome (list string * list (gmap string value)) :=
  match items with
  | [] => Ok acc
  | (course_id, cd) :: items' =>
      obind (subscript (title cd) "title") (fun title =>
      obind (subscript (learning_objectives cd) "learning-objectives")
        (fun objectives =>
      build_objective_documents_loop items'
        (objective_documents course_id title objectives acc)))
  end.

(** [build_objective_documents(courses)]. *)
Definition build_objective_documents (courses : list (string * course_data))
    : outcome (list string * list (gmap string value)) :=
  build_objective_documents_loop courses ([], []).

End IR_indexer.

(** ** Notions used by the statements *)

(** The three retrieval modes. *)
Definition valid_mode (mode : string) : Prop :=
  mode = "sparse" \/ mode = "dense" \/ mode = "hybrid".

(** Every earlier entry of [l] is related to every later one. *)
Definition pairwise {A} (R : A -> A -> Prop) (l : list A) : Prop :=
  forall i j a b, (i < j)%nat -> l !! i = Some a -> l !! j = Some b -> R a b.

(** The order [np.argsort] produces: ascending score, equal scores by
    ascending index. *)
Definition precedes (xs : list Qc) (a b : nat) : Prop :=
  (xs !!! a < xs !!! b)%Qc \/ (xs !!! a = xs !!! b /\ (a < b)%nat).

(** A course index as [build_all_indices] leaves it: the parallel lists
    have one entry per document, identifiers are unique, and every metadata
    dictionary has a title. *)
Record wf_index (ix : index) : Prop := {
  wf_texts : length (texts ix) = length (course_codes ix);
  wf_metadata : length (metadata ix) = length (course_codes ix);
  wf_tfidf : length (tfidf_matrix ix) = length (course_codes ix);
  wf_embeddings : length (embeddings ix) = length (course_codes ix);
  wf_unique : NoDup (course_codes ix);
  wf_title : Forall (fun m : gmap string value => is_Some (m !! "title")) (metadata ix)
}.


(** The score stored in a result dictionary. *)
Definition result_score (r : gmap string value) : Qc :=
  match r !! "score" with
  | Some (VFloat x) => x
  | _ => 0%Qc
  end.

(** The document identifier stored in a result dictionary. *)
Definition result_id (sv : service) (r : gmap string value) : option string :=
  match r !! id_key sv with
  | Some (VStr c) => Some c
  | _ => None
  end.

(** The ingestion position of the document a result refers to. *)
Definition result_position (sv : service) (ix : index) (r : gmap string value)
    : option nat :=
  c ← result_id sv r; list_index c (course_codes ix).



(** A request served by the course retriever. *)
Inductive query_op :=
| Search (query mode : string) (top_k : Z) (alpha : Qc)
| FindSimilar (course_code mode : string) (top_k : Z) (alpha : Qc).

Definition run_query (cosine : vector -> vector -> Qc) (sv : service)
    (op : query_op) : M (list (gmap string value)) :=
  match op with
  | Search query mode top_k alpha =>
      CourseRetriever.search cosine sv query mode top_k alpha
  | FindSimilar course_code mode top_k alpha =>
      CourseRetriever.find_similar cosine sv course_code mode top_k alpha
  end.

(** A sequence of requests against one retriever; a request that raises
    does not stop the ones after it. *)
Fixpoint run_queries (cosine : vector -> vector -> Qc) (sv : service)
    (ops : list query_op) (w : world)
    : list (outcome (list (gmap string value))) * world :=
  match ops with
  | [] => ([], w)
  | op :: ops' =>
      let '(o, w') := run_query cosine sv op w in
      let '(os, w'') := run_queries cosine sv ops' w' in
      (o :: os, w'')
  end.

(** The world after the vector calls [ops]. *)
Definition after (ops : list vector_op) (w : world) : world :=
  {| self := self w; vector_work := (vector_work w ++ ops)%list |}.

(** The similarity of a query vector with every row of a matrix, the
    value of [cosine_similarity(q, matrix).flatten()]. *)
Definition similarities (cosine : vector -> vector -> Qc)
    (q : vector) (matrix : list vector) : list Qc :=
  map (cosine q) matrix.

(** Result [r] reports document [idx] of [ix] with its score in [scores]. *)
Definition reports (sv : service) (ix : index) (scores : list Qc)
    (idx : nat) (r : gmap string value) : Prop :=
  scores !! idx = Some (result_score r) /\
  result_position sv ix r = Some idx /\
  (exists c, course_codes ix !! idx = Some c /\ result_id sv r = Some c).

(** The ranking both methods read their results from:
    [np.argsort(scores)[::-1]]. *)
Definition ranking (scores : list Qc) : list nat :=
  reverse (np.argsort scores).

(** [alpha * dense + (1 - alpha) * sparse] on arrays of one shape. *)
Definition fused (alpha : Qc) (dense sparse : list Qc) : list Qc :=
  zip_with Qcplus (np.scale alpha dense) (np.scale (1 - alpha)%Qc sparse).

(** ** Example data *)

(** The rational [n/d]. *)
Definition q (n : Z) (d : positive) : Qc := Q2Qc (n # d).

(** The inner product; on rows of Euclidean norm one (as TF-IDF rows are)
    or zero, it is their cosine similarity. *)
Fixpoint dot (x y : vector) : Qc :=
  match x, y with
  | a :: x', b :: y' => (a * b + dot x' y')%Qc
  | _, _ => 0%Qc
  end.

(** Three courses over the terms (machine, learning, cooking): A on
    machine learning, B on cooking, C on learning.  A query other than
    ["machine learning"] has no known term. *)
Definition three_docs : index := {|
  texts := ["machine learning and statistics"; "introduction to cooking";
            "statistical learning methods"];
  metadata := [ {[ "course_code" := VStr "A"; "title" := VStr "Machine learning";
                   "fields" := VFields [("Responsible", "Tue Herlau")] ]};
                {[ "course_code" := VStr "B"; "title" := VStr "Cooking";
                   "fields" := VFields [] ]};
                {[ "course_code" := VStr "C"; "title" := VStr "Learning methods";
                   "fields" := VFields [] ]} ];
  course_codes := ["A"; "B"; "C"];
  tfidf_vectorizer := fun text =>
    if decide (text = "machine learning") then [q 3 5; q 4 5; q 0 1]
    else [q 0 1; q 0 1; q 0 1];
  tfidf_matrix := [ [q 3 5; q 4 5; q 0 1]; [q 0 1; q 0 1; q 1 1];
                    [q 0 1; q 1 1; q 0 1] ];
  model := fun text =>
    if decide (text = "machine learning") then [q 1 1; q 0 1]
    else [q 0 1; q 1 1];
  embeddings := [ [q 1 1; q 0 1]; [q 0 1; q 1 1]; [q 3 5; q 4 5] ]
|}.

(** Two courses with distinct identifiers and the same text, hence the
    same sparse row and the same embedding. *)
Definition twin_docs : index := {|
  texts := ["statistics"; "statistics"];
  metadata := [ {[ "course_code" := VStr "02402"; "title" := VStr "Statistics";
                   "fields" := VFields [] ]};
                {[ "course_code" := VStr "02403"; "title" := VStr "Statistics";
                   "fields" := VFields [] ]} ];
  course_codes := ["02402"; "02403"];
  tfidf_vectorizer := fun _ => [q 1 1; q 0 1];
  tfidf_matrix := [ [q 1 1; q 0 1]; [q 1 1; q 0 1] ];
  model := fun _ => [q 1 1; q 0 1];
  embeddings := [ [q 1 1; q 0 1]; [q 1 1; q 0 1] ]
|}.

(** A single-course index. *)
Definition one_doc : index := {|
  texts := ["statistics"];
  metadata := [ {[ "course_code" := VStr "02402"; "title" := VStr "Statistics";
                   "fields" := VFields [] ]} ];
  course_codes := ["02402"];
  tfidf_vectorizer := fun _ => [q 1 1];
  tfidf_matrix := [ [q 1 1] ];
  model := fun _ => [q 1 1];
  embeddings := [ [q 1 1] ]
|}.

(** A freshly constructed retriever: no vector work done yet. *)
Definition fresh (ix : index) : world := {| self := ix; vector_work := [] |}.


(** A computation that leaves the retriever object as it found it,
    whether it returns or raises. *)
Definition preserves_self {A} (m : M A) : Prop :=
  forall w, self (m w).2 = self w.

(** ** Further notions: scores and vector work by mode *)




(** The score array [find_similar] ranks for the document at [query_idx]
    in a valid mode: the stored row or embedding of that document takes
    the place of the query vector. *)
Definition similar_scores (cosine : vector -> vector -> Qc) (ix : index)
    (query_idx : nat) (mode : string) (alpha : Qc) : list Qc :=
  let sparse :=
    similarities cosine (tfidf_matrix ix !!! query_idx) (tfidf_matrix ix) in
  let dense :=
    similarities cosine (embeddings ix !!! query_idx) (embeddings ix) in
  if decide (mode = "sparse") then sparse
  else if decide (mode = "dense") then dense
  else fused alpha dense sparse.

(** The vector-library calls of one [find_similar] on a known identifier
    in a valid mode. *)
Definition similar_ops (mode : string) : list vector_op :=
  if decide (mode = "hybrid") then [CosineSimilarity; CosineSimilarity]
  else [CosineSimilarity].

(** * Properties *)

(** ** Ordered lists *)

Section Pairwise.
Context {A : Type} (R : A -> A -> Prop).

Lemma pairwise_nil : pairwise R [].
Proof. intros i j a b _ H. by rewrite lookup_nil in H. Qed.

Lemma pairwise_cons x l :
  pairwise R (x :: l) <-> Forall (R x) l /\ pairwise R l.
Proof.
  split.
  - intros H. split.
    + apply Forall_lookup. intros i y Hy. apply (H 0%nat (S i) x y); [lia|done|done].
    + intros i j a b Hij Ha Hb. apply (H (S i) (S j) a b); [lia|done|done].
  - intros [Hx Hl] i j a b Hij Ha Hb.
    destruct j as [|j]; [lia|]. destruct i as [|i]; simpl in *.
    + injection Ha as <-. eapply Forall_lookup_1; eauto.
    + apply (Hl i j a b); [lia|done|done].
Qed.

Lemma pairwise_reverse l : pairwise R l -> pairwise (flip R) (reverse l).
Proof.
  intros H i j a b Hij Ha Hb.
  apply reverse_lookup_Some in Ha as [Ha Hi].
  apply reverse_lookup_Some in Hb as [Hb Hj].
  unfold flip. eapply (H _ _ b a); [|done|done]. lia.
Qed.

Lemma pairwise_take n l : pairwise R l -> pairwise R (take n l).
Proof.
  intros H i j a b Hij Ha Hb.
  apply lookup_take_Some in Ha as [Ha _]. apply lookup_take_Some in Hb as [Hb _].
  eauto.
Qed.

Lemma pairwise_drop n l : pairwise R l -> pairwise R (drop n l).
Proof.
  intros H i j a b Hij Ha Hb. rewrite lookup_drop in Ha, Hb.
  eapply (H (n + i)%nat (n + j)%nat); [lia|done|done].
Qed.

Lemma pairwise_slice start stop l : pairwise R l -> pairwise R (slice start stop l).
Proof. intros H. unfold slice. by apply pairwise_take, pairwise_drop. Qed.

End Pairwise.

Lemma pairwise_fmap {A B} (f : A -> B) (R : B -> B -> Prop) l :
  pairwise (fun a b => R (f a) (f b)) l -> pairwise R (f <$> l).
Proof.
  intros H i j a b Hij Ha Hb.
  apply list_lookup_fmap_Some in Ha as (a' & -> & Ha).
  apply list_lookup_fmap_Some in Hb as (b' & -> & Hb). eauto.
Qed.

Lemma pairwise_impl {A} (R S : A -> A -> Prop) l :
  (forall a b, a ∈ l -> b ∈ l -> R a b -> S a b) -> pairwise R l -> pairwise S l.
Proof.
  intros HRS H i j a b Hij Ha Hb.
  apply HRS; [by eapply list_elem_of_lookup_2| by eapply list_elem_of_lookup_2 | eauto].
Qed.

(** ** [np.argsort] *)

Lemma insert_index_Permutation xs i l : np.insert_index xs i l ≡ₚ i :: l.
Proof.
  induction l as [|j l IH]; simpl; [done|].
  case_bool_decide; [done|]. rewrite IH. apply Permutation_swap.
Qed.

Lemma insert_index_pairwise xs i l :
  pairwise (precedes xs) l -> Forall (fun j => (i < j)%nat) l ->
  pairwise (precedes xs) (np.insert_index xs i l).
Proof.
  induction l as [|j l IH]; simpl; intros Hl Hi.
  - apply pairwise_cons. split; [constructor | apply pairwise_nil].
  - apply (pairwise_cons _ j l) in Hl as [Hj Hl].
    apply Forall_cons_1 in Hi as [Hij Hi].
    case_bool_decide as Hle.
    + apply pairwise_cons. split; [|by apply pairwise_cons].
      assert (Hpj : precedes xs i j).
      { apply Qcle_lt_or_eq in Hle as [?|?]; [by left | by right]. }
      constructor; [done|].
      apply Forall_forall. intros b Hb.
      rewrite Forall_forall in Hj, Hi. specialize (Hj b Hb). specialize (Hi b Hb).
      assert (Hb' : (xs !!! j ≤ xs !!! b)%Qc).
      { destruct Hj as [?|[-> _]]; [by apply Qclt_le_weak | apply Qcle_refl]. }
      assert (Hib : (xs !!! i ≤ xs !!! b)%Qc) by (by eapply Qcle_trans).
      apply Qcle_lt_or_eq in Hib as [?|?]; [by left | by right].
    + apply pairwise_cons. split; [|by apply IH].
      rewrite insert_index_Permutation. constructor; [|done].
      left. by apply Qcnot_le_lt.
Qed.

Lemma argsort_from xs s n :
  let l := foldr (np.insert_index xs) [] (seq s n) in
  l ≡ₚ seq s n /\ pairwise (precedes xs) l.
Proof.
  revert s. induction n as [|n IH]; intros s; simpl.
  - split; [done | apply pairwise_nil].
  - destruct (IH (S s)) as [Hp Hs]. split.
    + by rewrite insert_index_Permutation, Hp.
    + apply insert_index_pairwise; [done|].
      rewrite Hp. apply Forall_forall. intros j Hj.
      apply in_seq in Hj. lia.
Qed.

Lemma argsort_Permutation xs : np.argsort xs ≡ₚ seq 0 (length xs).
Proof. apply (argsort_from xs 0 (length xs)). Qed.

Lemma argsort_pairwise xs : pairwise (precedes xs) (np.argsort xs).
Proof. apply (argsort_from xs 0 (length xs)). Qed.

Lemma length_argsort xs : length (np.argsort xs) = length xs.
Proof. by rewrite argsort_Permutation, length_seq. Qed.

Lemma argsort_lt xs i : i ∈ np.argsort xs -> (i < length xs)%nat.
Proof. rewrite argsort_Permutation, elem_of_seq. lia. Qed.

Lemma argsort_NoDup xs : NoDup (np.argsort xs).
Proof. rewrite argsort_Permutation. apply NoDup_seq. Qed.

(** ** Slices *)


Lemma slice_tail_length {A} (l : list A) (k : Z) :
  0 <= k -> length (slice 1 (k + 1) l) = Nat.min (Z.to_nat k) (length l - 1).
Proof.
  intros Hk. unfold slice, slice_bound.
  case_decide; [lia|]. case_decide; [lia|].
  rewrite length_take, length_drop. lia.
Qed.

Lemma elem_of_slice {A} (start stop : Z) (l : list A) x :
  x ∈ slice start stop l -> x ∈ l.
Proof.
  unfold slice. intros H.
  apply list_elem_of_lookup in H as [i Hi].
  apply lookup_take_Some in Hi as [Hi _]. rewrite lookup_drop in Hi.
  by eapply list_elem_of_lookup_2.
Qed.

(** ** The method monad *)

Lemma flatten_one_row cosine q matrix :
  flatten (cosine_similarity cosine [q] matrix) = similarities cosine q matrix.
Proof. unfold flatten, cosine_similarity, similarities. simpl. apply app_nil_r. Qed.

Lemma bind_run {A B} (m : M A) (k : A -> M B) w :
  (m ≫= k) w = match m w with
               | (Ok a, w') => k a w'
               | (Raise e, w') => (Raise e, w')
               end.
Proof. reflexivity. Qed.

Lemma self_after ops w : self (after ops w) = self w.
Proof. reflexivity. Qed.

Lemma after_after ops1 ops2 w :
  after ops2 (after ops1 w) = after (ops1 ++ ops2) w.
Proof. unfold after. simpl. by rewrite <- app_assoc. Qed.

Lemma for_each_ok {A B} (body : A -> M B) (P : A -> B -> Prop) xs w :
  (forall x, x ∈ xs -> exists r, body x w = (Ok r, w) /\ P x r) ->
  exists rs, for_each body xs w = (Ok rs, w) /\ Forall2 P xs rs.
Proof.
  induction xs as [|x xs IH]; intros H; simpl.
  - exists []. split; [done | constructor].
  - destruct (H x) as (r & Hr & HP); [left|].
    destruct IH as (rs & Hrs & HPs). { intros y Hy. apply H. by right. }
    exists (r :: rs). unfold mbind, M_bind. rewrite Hr, Hrs. split; [done|].
    by constructor.
Qed.

Lemma list_index_None x l : list_index x l = None <-> x ∉ l.
Proof.
  induction l as [|y l IH]; simpl.
  - split; [intros _; apply not_elem_of_nil | done].
  - case_decide as Hy.
    + subst. split; [done|]. intros H. destruct H. left.
    + rewrite not_elem_of_cons. destruct (list_index x l); simpl.
      * split; [done|]. intros [_ H]. by apply IH in H.
      * split; [|done]. intros _. split; [congruence | by apply IH].
Qed.

Lemma list_index_lookup x l i : list_index x l = Some i -> l !! i = Some x.
Proof.
  revert i. induction l as [|y l IH]; intros i; simpl; [done|].
  case_decide as Hy; [intros [= <-]; by subst|].
  destruct (list_index x l) as [j|]; simpl; [|done].
  intros [= <-]. simpl. by apply IH.
Qed.

Lemma list_index_NoDup l i x :
  NoDup l -> l !! i = Some x -> list_index x l = Some i.
Proof.
  revert i. induction l as [|y l IH]; intros i Hnd Hi; [done|].
  pose proof (NoDup_cons_1_1 _ _ Hnd) as Hy.
  apply NoDup_cons_1_2 in Hnd. simpl.
  destruct i as [|i]; simpl in Hi.
  - injection Hi as ->. by rewrite decide_True.
  - rewrite decide_False.
    + by rewrite (IH i).
    + intros ->. apply Hy. by eapply list_elem_of_lookup_2.
Qed.

(** ** Running the methods of [CourseRetriever] *)

Section CourseRetrieverFacts.
Context (cosine : vector -> vector -> Qc) (sv : service).

Lemma sparse_search_run query w :
  CourseRetriever._sparse_search cosine query w =
  (Ok (similarities cosine (tfidf_vectorizer (self w) query) (tfidf_matrix (self w))),
   after [Transform query; CosineSimilarity] w).
Proof.
  unfold CourseRetriever._sparse_search, after, mbind, M_bind, read, call, mret, M_ret.
  simpl. unfold similarities. by rewrite app_nil_r, <- app_assoc.
Qed.

Lemma dense_search_run query w :
  CourseRetriever._dense_search cosine query w =
  (Ok (similarities cosine (model (self w) query) (embeddings (self w))),
   after [Encode query; CosineSimilarity] w).
Proof.
  unfold CourseRetriever._dense_search, after, mbind, M_bind, read, call, mret, M_ret.
  simpl. unfold similarities. by rewrite app_nil_r, <- app_assoc.
Qed.

Lemma rag_entry_lookup (c : string) (t f : value) (s : Qc) :
  let r : gmap string value :=
    {[ "course_code" := VStr c; "title" := t; "score" := VFloat s; "fields" := f ]} in
  r !! "course_code" = Some (VStr c) /\ r !! "score" = Some (VFloat s).
Proof. split; reflexivity. Qed.

Lemma ir_entry_lookup (c : string) (t : value) (s : Qc) :
  let r : gmap string value :=
    {[ "course_id" := VStr c; "title" := t; "score" := VFloat s ]} in
  r !! "course_id" = Some (VStr c) /\ r !! "score" = Some (VFloat s).
Proof. split; reflexivity. Qed.

Lemma result_entry_ok scores idx w :
  wf_index (self w) ->
  length scores = length (course_codes (self w)) ->
  (idx < length scores)%nat ->
  exists r, CourseRetriever.result_entry sv scores idx w = (Ok r, w) /\
            reports sv (self w) scores idx r.
Proof.
  intros Hwf Hlen Hidx.
  destruct (lookup_lt_is_Some_2 (course_codes (self w)) idx) as [c Hc]; [lia|].
  destruct (lookup_lt_is_Some_2 (metadata (self w)) idx) as [m Hm].
  { rewrite (wf_metadata _ Hwf). lia. }
  destruct (lookup_lt_is_Some_2 scores idx) as [s Hs]; [done|].
  destruct (Forall_lookup_1 _ _ _ _ (wf_title _ Hwf) Hm) as [t Ht].
  assert (Hpos : list_index c (course_codes (self w)) = Some idx).
  { apply list_index_NoDup; [apply Hwf | done]. }
  unfold CourseRetriever.result_entry, reports, result_position, result_id, result_score,
    mbind, M_bind, read, lift, getitem, dict_getitem, mret, M_ret.
  simpl. rewrite Hc, Hm, Ht, Hs. simpl.
  destruct sv; simpl; rewrite ?Hm; simpl; eexists; (split; [reflexivity|]).
  - destruct (rag_entry_lookup c t (dict_get m "fields" (VFields [])) s) as [-> ->].
    simpl. repeat split; [done | by exists c].
  - destruct (ir_entry_lookup c t s) as [-> ->].
    simpl. repeat split; [done | by exists c].
Qed.

Lemma np_add_same_shape xs ys :
  length xs = length ys -> np.add xs ys = Ok (zip_with Qcplus xs ys).
Proof. intros H. unfold np.add. by rewrite decide_True. Qed.

Lemma np_add_fused alpha dense sparse :
  length dense = length sparse ->
  np.add (np.scale alpha dense) (np.scale (1 - alpha)%Qc sparse) =
  Ok (fused alpha dense sparse).
Proof.
  intros H. apply np_add_same_shape. unfold np.scale. by rewrite !length_map.
Qed.

Lemma search_sparse_run query top_k alpha w :
  let scores :=
    similarities cosine (tfidf_vectorizer (self w) query) (tfidf_matrix (self w)) in
  CourseRetriever.search cosine sv query "sparse" top_k alpha w =
  for_each (CourseRetriever.result_entry sv scores) (slice 0 top_k (ranking scores))
    (after [Transform query; CosineSimilarity] w).
Proof.
  unfold CourseRetriever.search. rewrite bind_run, decide_True by done.
  by rewrite sparse_search_run.
Qed.

Lemma search_dense_run query top_k alpha w :
  let scores := similarities cosine (model (self w) query) (embeddings (self w)) in
  CourseRetriever.search cosine sv query "dense" top_k alpha w =
  for_each (CourseRetriever.result_entry sv scores) (slice 0 top_k (ranking scores))
    (after [Encode query; CosineSimilarity] w).
Proof.
  unfold CourseRetriever.search.
  rewrite bind_run, decide_False, decide_True by done.
  by rewrite dense_search_run.
Qed.

Lemma search_hybrid_run query top_k alpha w :
  length (tfidf_matrix (self w)) = length (embeddings (self w)) ->
  let scores :=
    fused alpha
      (similarities cosine (model (self w) query) (embeddings (self w)))
      (similarities cosine (tfidf_vectorizer (self w) query) (tfidf_matrix (self w))) in
  CourseRetriever.search cosine sv query "hybrid" top_k alpha w =
  for_each (CourseRetriever.result_entry sv scores) (slice 0 top_k (ranking scores))
    (after [Transform query; CosineSimilarity; Encode query; CosineSimilarity] w).
Proof.
  intros Hlen. unfold CourseRetriever.search.
  rewrite bind_run, !decide_False, decide_True by done.
  rewrite bind_run, sparse_search_run. cbv beta iota.
  rewrite bind_run, dense_search_run. cbv beta iota.
  unfold lift. rewrite !self_after, after_after, np_add_fused.
  - done.
  - unfold similarities. by rewrite !length_map.
Qed.

Lemma search_invalid_mode query mode top_k alpha w :
  ~ valid_mode mode ->
  CourseRetriever.search cosine sv query mode top_k alpha w =
  (Raise (ValueError ("Invalid mode: " ++ mode)), w).
Proof.
  intros H. unfold CourseRetriever.search, mbind, M_bind, valid_mode in *.
  repeat case_decide; solve [tauto | done].
Qed.

Lemma ranking_lt scores i : i ∈ ranking scores -> (i < length scores)%nat.
Proof. unfold ranking. rewrite elem_of_reverse. apply argsort_lt. Qed.

Lemma length_ranking scores : length (ranking scores) = length scores.
Proof. unfold ranking. by rewrite length_reverse, length_argsort. Qed.

Lemma results_ok scores start stop w :
  wf_index (self w) ->
  length scores = length (course_codes (self w)) ->
  exists rs,
    for_each (CourseRetriever.result_entry sv scores)
      (slice start stop (ranking scores)) w = (Ok rs, w) /\
    Forall2 (reports sv (self w) scores) (slice start stop (ranking scores)) rs.
Proof.
  intros Hwf Hlen. apply for_each_ok. intros idx Hidx.
  apply result_entry_ok; [done | done |].
  by apply elem_of_slice, ranking_lt in Hidx.
Qed.

Lemma length_similarities q matrix :
  length (similarities cosine q matrix) = length matrix.
Proof. unfold similarities. by rewrite length_map. Qed.

Lemma length_fused alpha dense sparse :
  length dense = length sparse -> length (fused alpha dense sparse) = length dense.
Proof.
  intros H. unfold fused, np.scale. rewrite length_zip_with, !length_map. lia.
Qed.

(** On a well-formed index and a valid mode, [search] returns the entries
    of a prefix of the ranking of one score per document. *)
Lemma search_ok query mode top_k alpha w :
  wf_index (self w) -> valid_mode mode ->
  exists scores ops rs,
    length scores = length (course_codes (self w)) /\
    CourseRetriever.search cosine sv query mode top_k alpha w = (Ok rs, after ops w) /\
    Forall2 (reports sv (self w) scores) (slice 0 top_k (ranking scores)) rs.
Proof.
  intros Hwf [-> | [-> | ->]].
  - eexists _, _. rewrite search_sparse_run.
    edestruct (results_ok (similarities cosine (tfidf_vectorizer (self w) query)
                             (tfidf_matrix (self w))) 0 top_k
                 (after [Transform query; CosineSimilarity] w))
      as (rs & Hrs & HF); [done | |].
    { rewrite length_similarities. apply Hwf. }
    exists rs. split; [|split; [exact Hrs | exact HF]].
    rewrite length_similarities. apply Hwf.
  - eexists _, _. rewrite search_dense_run.
    edestruct (results_ok (similarities cosine (model (self w) query)
                             (embeddings (self w))) 0 top_k
                 (after [Encode query; CosineSimilarity] w))
      as (rs & Hrs & HF); [done | |].
    { rewrite length_similarities. apply Hwf. }
    exists rs. split; [|split; [exact Hrs | exact HF]].
    rewrite length_similarities. apply Hwf.
  - assert (Hlen : length (tfidf_matrix (self w)) = length (embeddings (self w))).
    { by rewrite (wf_tfidf _ Hwf), (wf_embeddings _ Hwf). }
    eexists _, _. rewrite search_hybrid_run by done.
    match goal with
    | |- context [for_each _ (slice _ _ (ranking ?s)) ?w'] =>
        edestruct (results_ok s 0 top_k w') as (rs & Hrs & HF);
          [done | |
           exists rs; split; [|split; [exact Hrs | exact HF]]]
    end.
    all: rewrite length_fused, length_similarities;
      rewrite ?length_similarities; solve [apply Hwf | done].
Qed.

Lemma find_similar_unknown course_code mode top_k alpha w :
  course_code ∉ course_codes (self w) ->
  CourseRetriever.find_similar cosine sv course_code mode top_k alpha w = (Ok [], w).
Proof.
  intros H. apply list_index_None in H.
  unfold CourseRetriever.find_similar. rewrite bind_run. unfold read at 1.
  by rewrite H.
Qed.

Lemma find_similar_invalid_mode course_code mode top_k alpha w :
  course_code ∈ course_codes (self w) -> ~ valid_mode mode ->
  CourseRetriever.find_similar cosine sv course_code mode top_k alpha w =
  (Raise (ValueError ("Invalid mode: " ++ mode)), w).
Proof.
  intros Hin H.
  destruct (list_index course_code (course_codes (self w))) as [qi|] eqn:Hqi;
    [|by apply list_index_None in Hqi].
  unfold CourseRetriever.find_similar. rewrite bind_run. unfold read at 1.
  rewrite Hqi. rewrite bind_run. unfold valid_mode in H.
  repeat case_decide; solve [tauto | done].
Qed.

(** On a well-formed index, a known identifier and a valid mode,
    [find_similar] returns the entries of the ranking of one score per
    document from its second position on. *)
Lemma find_similar_ok course_code mode top_k alpha w :
  wf_index (self w) -> valid_mode mode ->
  course_code ∈ course_codes (self w) ->
  exists scores ops rs,
    length scores = length (course_codes (self w)) /\
    CourseRetriever.find_similar cosine sv course_code mode top_k alpha w =
      (Ok rs, after ops w) /\
    Forall2 (reports sv (self w) scores) (slice 1 (top_k + 1) (ranking scores)) rs.
Proof.
  intros Hwf Hmode Hin.
  destruct (list_index course_code (course_codes (self w))) as [qi|] eqn:Hqi;
    [|by apply list_index_None in Hqi].
  pose proof (list_index_lookup _ _ _ Hqi) as Hlt. apply lookup_lt_Some in Hlt.
  destruct (lookup_lt_is_Some_2 (tfidf_matrix (self w)) qi) as [qv Hqv].
  { rewrite (wf_tfidf _ Hwf). lia. }
  destruct (lookup_lt_is_Some_2 (embeddings (self w)) qi) as [qe Hqe].
  { rewrite (wf_embeddings _ Hwf). lia. }
  unfold CourseRetriever.find_similar. rewrite bind_run. unfold read at 1.
  rewrite Hqi. rewrite bind_run.
  destruct Hmode as [-> | [-> | ->]].
  - rewrite decide_True by done.
    unfold mbind, M_bind, read, lift, call, getitem. simpl. rewrite Hqv.
    unfold flatten, cosine_similarity. simpl. rewrite app_nil_r.
    fold (similarities cosine qv (tfidf_matrix (self w))).
    fold (ranking (similarities cosine qv (tfidf_matrix (self w)))).
    fold (after [CosineSimilarity] w).
    edestruct (results_ok (similarities cosine qv (tfidf_matrix (self w)))
                 1 (top_k + 1) (after [CosineSimilarity] w)) as (rs & Hrs & HF);
      [done | |].
    { rewrite length_similarities. apply Hwf. }
    exists (similarities cosine qv (tfidf_matrix (self w))), [CosineSimilarity], rs.
    split; [|split; [exact Hrs | exact HF]].
    rewrite length_similarities. apply Hwf.
  - rewrite decide_False, decide_True by done.
    unfold mbind, M_bind, read, lift, call, getitem. simpl. rewrite Hqe.
    unfold flatten, cosine_similarity. simpl. rewrite app_nil_r.
    fold (similarities cosine qe (embeddings (self w))).
    fold (ranking (similarities cosine qe (embeddings (self w)))).
    fold (after [CosineSimilarity] w).
    edestruct (results_ok (similarities cosine qe (embeddings (self w)))
                 1 (top_k + 1) (after [CosineSimilarity] w)) as (rs & Hrs & HF);
      [done | |].
    { rewrite length_similarities. apply Hwf. }
    exists (similarities cosine qe (embeddings (self w))), [CosineSimilarity], rs.
    split; [|split; [exact Hrs | exact HF]].
    rewrite length_similarities. apply Hwf.
  - rewrite !decide_False, decide_True by done.
    unfold mbind, M_bind, read, lift, call, getitem. simpl. rewrite Hqv. simpl.
    rewrite Hqe. unfold flatten, cosine_similarity. simpl. rewrite !app_nil_r.
    fold (similarities cosine qv (tfidf_matrix (self w))).
    fold (similarities cosine qe (embeddings (self w))).
    rewrite np_add_fused.
    2:{ rewrite !length_similarities.
        by rewrite (wf_tfidf _ Hwf), (wf_embeddings _ Hwf). }
    set (scores := fused alpha (similarities cosine qe (embeddings (self w)))
                     (similarities cosine qv (tfidf_matrix (self w)))).
    fold (ranking scores). rewrite <- app_assoc. simpl.
    fold (after [CosineSimilarity; CosineSimilarity] w).
    assert (Hlen : length scores = length (course_codes (self w))).
    { unfold scores. rewrite length_fused, length_similarities;
        rewrite ?length_similarities; [apply Hwf|].
      by rewrite (wf_tfidf _ Hwf), (wf_embeddings _ Hwf). }
    edestruct (results_ok scores 1 (top_k + 1)
                 (after [CosineSimilarity; CosineSimilarity] w)) as (rs & Hrs & HF);
      [done | done |].
    exists scores, [CosineSimilarity; CosineSimilarity], rs.
    split; [done | split; [exact Hrs | exact HF]].
Qed.

(** The entry built for an index depends on the retriever object only, and
    building it touches nothing. *)
Lemma result_entry_frame scores idx w :
  (CourseRetriever.result_entry sv scores idx w).2 = w.
Proof.
  unfold CourseRetriever.result_entry, mbind, M_bind, read, lift, getitem,
    dict_getitem, mret, M_ret.
  simpl. repeat case_match; simplify_eq/=; done.
Qed.





End CourseRetrieverFacts.

Lemma pairwise_Forall2 {A B} (P : A -> B -> Prop) (R : A -> A -> Prop)
    (S : B -> B -> Prop) l rs :
  (forall a b r1 r2, P a r1 -> P b r2 -> R a b -> S r1 r2) ->
  Forall2 P l rs -> pairwise R l -> pairwise S rs.
Proof.
  intros HRS HF HR i j r1 r2 Hij H1 H2.
  destruct (Forall2_lookup_r _ _ _ _ _ HF H1) as (a & Ha & HPa).
  destruct (Forall2_lookup_r _ _ _ _ _ HF H2) as (b & Hb & HPb).
  eapply HRS; eauto.
Qed.

Lemma ranking_pairwise scores : pairwise (flip (precedes scores)) (ranking scores).
Proof. apply pairwise_reverse, argsort_pairwise. Qed.

(** ** The claims *)


(** ** Running [ObjectiveRetriever.search] *)

Section ObjectiveRetrieverFacts.
Context (cosine : vector -> vector -> Qc).




End ObjectiveRetrieverFacts.



(** C7.  For an identifier that is not among the indexed identifiers,
    [find_similar] returns the empty list and raises nothing, whatever the
    mode (valid or not), [top_k] and [alpha]; it does no vector work. *)
Theorem find_similar_unknown_id (cosine : vector -> vector -> Qc) (sv : service)
    (course_code mode : string) (top_k : Z) (alpha : Qc) (w : world) :
  course_code ∉ course_codes (self w) ->
  CourseRetriever.find_similar cosine sv course_code mode top_k alpha w = (Ok [], w).
Proof. apply find_similar_unknown. Qed.

(** C10.  Over a well-formed index of [N] documents, for a known
    identifier, a valid mode and [top_k >= 0], [find_similar] returns
    exactly [min(top_k, N - 1)] results; over a single-document index the
    result is empty. *)
Theorem find_similar_length (cosine : vector -> vector -> Qc) (sv : service)
    (course_code mode : string) (top_k : Z) (alpha : Qc) (w : world) :
  wf_index (self w) -> valid_mode mode ->
  course_code ∈ course_codes (self w) -> 0 <= top_k ->
  exists rs w',
    CourseRetriever.find_similar cosine sv course_code mode top_k alpha w = (Ok rs, w') /\
    length rs = Nat.min (Z.to_nat top_k) (length (course_codes (self w)) - 1) /\
    (length (course_codes (self w)) = 1%nat -> rs = []).
Proof.
  intros Hwf Hmode Hin Hk.
  destruct (find_similar_ok cosine sv course_code mode top_k alpha w Hwf Hmode Hin)
    as (scores & ops & rs & Hlen & Hrun & HF).
  exists rs, (after ops w). split; [done|].
  assert (Hrs : length rs =
                Nat.min (Z.to_nat top_k) (length (course_codes (self w)) - 1)).
  { apply Forall2_length in HF. rewrite <- HF, slice_tail_length by lia.
    by rewrite length_ranking, Hlen. }
  split; [done|]. intros H1. rewrite H1 in Hrs.
  apply length_zero_iff_nil. lia.
Qed.

(** ** The retriever object is never written *)

Section Frame.

Lemma preserves_ret {A} (a : A) : preserves_self (mret a).
Proof. by intros w. Qed.

Lemma preserves_raise {A} e : preserves_self (@raise A e).
Proof. by intros w. Qed.

Lemma preserves_lift {A} (o : outcome A) : preserves_self (lift o).
Proof. by intros w. Qed.

Lemma preserves_read {A} (f : index -> A) : preserves_self (read f).
Proof. by intros w. Qed.

Lemma preserves_call {A} op (a : A) : preserves_self (call op a).
Proof. by intros w. Qed.

Lemma preserves_bind {A B} (m : M A) (k : A -> M B) :
  preserves_self m -> (forall a, preserves_self (k a)) -> preserves_self (m ≫= k).
Proof.
  intros Hm Hk w. rewrite bind_run. specialize (Hm w).
  destruct (m w) as [[a|e] w']; simpl in *; [|done].
  by rewrite Hk.
Qed.

Lemma preserves_for_each {A B} (body : A -> M B) xs :
  (forall x, preserves_self (body x)) -> preserves_self (for_each body xs).
Proof.
  intros Hbody. induction xs as [|x xs IH]; simpl.
  - apply preserves_ret.
  - apply preserves_bind; [done|]. intros r.
    apply preserves_bind; [done|]. intros rs. apply preserves_ret.
Qed.

End Frame.

Create HintDb frame.
#[local] Hint Resolve preserves_ret preserves_raise preserves_lift preserves_read
  preserves_call : frame.

Ltac frame_step :=
  first
    [ apply preserves_bind; [|intros ?]
    | apply preserves_for_each; intros ?
    | solve [auto with frame]
    | case_decide
    | case_match ].

Lemma result_entry_preserves sv scores idx :
  preserves_self (CourseRetriever.result_entry sv scores idx).
Proof. unfold CourseRetriever.result_entry. repeat frame_step. Qed.

Lemma search_preserves cosine sv query mode top_k alpha :
  preserves_self (CourseRetriever.search cosine sv query mode top_k alpha).
Proof.
  unfold CourseRetriever.search, CourseRetriever._sparse_search,
    CourseRetriever._dense_search.
  repeat frame_step. all: apply result_entry_preserves.
Qed.

Lemma find_similar_preserves cosine sv course_code mode top_k alpha :
  preserves_self (CourseRetriever.find_similar cosine sv course_code mode top_k alpha).
Proof.
  unfold CourseRetriever.find_similar.
  repeat frame_step. all: apply result_entry_preserves.
Qed.

(** C9.  Whatever sequence of [search] and [find_similar] requests is
    run, with whatever arguments and whether a request returns or raises,
    the retriever object (texts, metadata, identifiers, vectorizer, sparse
    matrix, encoder and embeddings) is the same afterwards as before. *)
Theorem queries_leave_index_unchanged (cosine : vector -> vector -> Qc)
    (sv : service) (ops : list query_op) (w : world) :
  self (run_queries cosine sv ops w).2 = self w.
Proof.
  revert w. induction ops as [|op ops IH]; intros w; simpl; [done|].
  assert (Hop : preserves_self (run_query cosine sv op)).
  { destruct op; [apply search_preserves | apply find_similar_preserves]. }
  specialize (Hop w). destruct (run_query cosine sv op w) as [o w1].
  specialize (IH w1). destruct (run_queries cosine sv ops w1) as [os w2].
  simpl in *. congruence.
Qed.

(** ** Equal scores *)




Lemma reports_ids sv ix scores l rs :
  Forall2 (reports sv ix scores) l rs ->
  result_id sv <$> rs = (fun i => course_codes ix !! i) <$> l.
Proof.
  induction 1 as [|idx r l rs (_ & _ & c & Hc & Hr) _ IH]; [done|].
  rewrite !fmap_cons, IH, Hc, Hr. done.
Qed.



(** ** The example indices *)

Lemma three_docs_wf : wf_index three_docs.
Proof.
  constructor; try reflexivity.
  - apply (bool_decide_unpack _). vm_compute. exact I.
  - repeat constructor; eexists; reflexivity.
Qed.

Lemma twin_docs_wf : wf_index twin_docs.
Proof.
  constructor; try reflexivity.
  - apply (bool_decide_unpack _). vm_compute. exact I.
  - repeat constructor; eexists; reflexivity.
Qed.

Lemma one_doc_wf : wf_index one_doc.
Proof.
  constructor; try reflexivity.
  - apply (bool_decide_unpack _). vm_compute. exact I.
  - repeat constructor; eexists; reflexivity.
Qed.




(** C3, the failing input.  Courses 02402 and 02403 have the same text,
    hence the same vectors and the same similarity to 02402.  The ranking
    puts 02403 first, [find_similar] drops that first entry, and the source
    course 02402 is returned as its own most similar course, in every
    mode. *)
Lemma find_similar_returns_source_on_twins :
  Forall (fun mode =>
            exists rs,
              (CourseRetriever.find_similar dot RAG "02402" mode 1 (q 1 2)
                 (fresh twin_docs)).1 = Ok rs /\
              result_id RAG <$> rs = [Some "02402"])
         ["sparse"; "dense"; "hybrid"].
Proof.
  repeat constructor; (eexists; split; [vm_compute; reflexivity | reflexivity]).
Qed.

(** C4, counterexample.  The retriever checks neither [top_k] nor [alpha],
    and [find_similar] looks the identifier up before it looks at the mode:
    [top_k = 0] returns the empty list, [alpha = 2] returns a ranking,
    [top_k = -1] returns all results but the last, and an unknown mode with
    an unknown identifier returns the empty list; none of them raises. *)
Lemma retriever_accepts_out_of_range_arguments :
  (CourseRetriever.search dot RAG "machine learning" "hybrid" 0 (q 1 2)
     (fresh three_docs)).1 = Ok [] /\
  (exists rs,
     (CourseRetriever.search dot RAG "machine learning" "hybrid" 3 (q 2 1)
        (fresh three_docs)).1 = Ok rs /\
     result_id RAG <$> rs = [Some "A"; Some "C"; Some "B"]) /\
  (exists rs,
     (CourseRetriever.search dot RAG "machine learning" "dense" (-1) (q 1 2)
        (fresh three_docs)).1 = Ok rs /\
     result_id RAG <$> rs = [Some "A"; Some "C"]) /\
  CourseRetriever.find_similar dot RAG "99999" "fuzzy" 3 (q 1 2) (fresh three_docs) =
    (Ok [], fresh three_docs).
Proof.
  split; [reflexivity|]. split; [|split; [|reflexivity]].
  - eexists. split; [vm_compute; reflexivity | reflexivity].
  - eexists. split; [vm_compute; reflexivity | reflexivity].
Qed.

(** C4, as the code has it.  The mode is the one argument the retriever
    validates.  With a mode other than sparse, dense and hybrid, [search]
    raises [ValueError] and so does [find_similar] on a known identifier,
    in both cases before any vector work (the world, trace included, is
    untouched).  With a valid mode over a well-formed index neither method
    raises, for every [top_k], every [alpha] and every identifier. *)
Theorem mode_is_validated (cosine : vector -> vector -> Qc) (sv : service)
    (query known_code any_code bad_mode mode : string) (top_k : Z) (alpha : Qc)
    (w : world) :
  ~ valid_mode bad_mode -> valid_mode mode ->
  wf_index (self w) -> known_code ∈ course_codes (self w) ->
  CourseRetriever.search cosine sv query bad_mode top_k alpha w =
    (Raise (ValueError ("Invalid mode: " ++ bad_mode)), w) /\
  CourseRetriever.find_similar cosine sv known_code bad_mode top_k alpha w =
    (Raise (ValueError ("Invalid mode: " ++ bad_mode)), w) /\
  (exists rs w',
     CourseRetriever.search cosine sv query mode top_k alpha w = (Ok rs, w')) /\
  (exists rs w',
     CourseRetriever.find_similar cosine sv any_code mode top_k alpha w = (Ok rs, w')).
Proof.
  intros Hbad Hmode Hwf Hin.
  split; [by apply search_invalid_mode|].
  split; [by apply find_similar_invalid_mode|]. split.
  - destruct (search_ok cosine sv query mode top_k alpha w Hwf Hmode)
      as (scores & ops & rs & _ & Hrun & _). eauto.
  - destruct (decide (any_code ∈ course_codes (self w))) as [Hany|Hany].
    + destruct (find_similar_ok cosine sv any_code mode top_k alpha w
                  Hwf Hmode Hany) as (scores & ops & rs & _ & Hrun & _). eauto.
    + exists [], w. by apply find_similar_unknown.
Qed.

(** C8, the failing input.  The [information-retrieval] builder subscripts
    the record: a course without a title makes [build_course_documents] and
    [build_objective_documents] raise [KeyError], where the [RAG] builder
    falls back to the empty string. *)
Lemma IR_builder_fails_on_missing_title :
  let catalog :=
    [("02402", {| IR_indexer.title := None;
                  IR_indexer.learning_objectives := Some ["describe data"] |})] in
  IR_indexer.build_course_documents catalog = Raise (KeyError "title") /\
  IR_indexer.build_objective_documents catalog = Raise (KeyError "title").
Proof. split; reflexivity. Qed.

(** The [RAG] builder on a record with every key missing: empty text,
    empty identifier, empty title, empty fields. *)
Lemma RAG_builder_defaults_missing_fields (json_dumps : fields_t -> string) :
  let record := {| RAG_indexer.course_code := None; RAG_indexer.title := None;
                   RAG_indexer.fields := None;
                   RAG_indexer.learning_objectives := None;
                   RAG_indexer.content := None |} in
  RAG_indexer.build_course_text json_dumps record = "" /\
  RAG_indexer.build_course_documents json_dumps [record] =
    ([""],
     [ {[ "course_code" := VStr ""; "title" := VStr ""; "fields" := VFields [] ]} ],
     [""]).
Proof. split; reflexivity. Qed.

(** ** The statements at concrete inputs *)

Lemma valid_mode_hybrid : valid_mode "hybrid".
Proof. right. by right. Defined.




Lemma unknown_code_99999 : "99999" ∉ course_codes (self (fresh three_docs)).
Proof. apply (bool_decide_unpack _). vm_compute. exact I. Defined.

Lemma known_code_A : "A" ∈ course_codes (self (fresh three_docs)).
Proof. apply (bool_decide_unpack _). vm_compute. exact I. Defined.

Lemma find_similar_unknown_id_witness :
  ("99999" ∉ course_codes (self (fresh three_docs))) /\
  CourseRetriever.find_similar dot RAG "99999" "dense" 10 (q 1 2) (fresh three_docs) =
    (Ok [], fresh three_docs).
Proof.
  split; [exact unknown_code_99999|].
  exact (find_similar_unknown_id dot RAG "99999" "dense" 10 (q 1 2)
           (fresh three_docs) unknown_code_99999).
Defined.

Lemma find_similar_length_witness :
  wf_index (self (fresh three_docs)) /\ valid_mode "hybrid" /\
  "A" ∈ course_codes (self (fresh three_docs)) /\ 0 <= 10 /\
  exists rs w',
    CourseRetriever.find_similar dot RAG "A" "hybrid" 10 (q 1 2) (fresh three_docs) =
      (Ok rs, w') /\
    length rs =
      Nat.min (Z.to_nat 10) (length (course_codes (self (fresh three_docs))) - 1) /\
    (length (course_codes (self (fresh three_docs))) = 1%nat -> rs = []).
Proof.
  assert (H10 : 0 <= 10) by lia.
  split; [exact three_docs_wf|]. split; [exact valid_mode_hybrid|].
  split; [exact known_code_A|]. split; [exact H10|].
  exact (find_similar_length dot RAG "A" "hybrid" 10 (q 1 2) (fresh three_docs)
           three_docs_wf valid_mode_hybrid known_code_A H10).
Defined.

Lemma invalid_mode_fuzzy : ~ valid_mode "fuzzy".
Proof. intros [H | [H | H]]; discriminate H. Defined.

Lemma mode_is_validated_witness :
  ~ valid_mode "fuzzy" /\ valid_mode "hybrid" /\
  wf_index (self (fresh three_docs)) /\
  "A" ∈ course_codes (self (fresh three_docs)) /\
  CourseRetriever.search dot RAG "machine learning" "fuzzy" 0 (q 2 1)
    (fresh three_docs) =
    (Raise (ValueError "Invalid mode: fuzzy"), fresh three_docs) /\
  CourseRetriever.find_similar dot RAG "A" "fuzzy" 0 (q 2 1) (fresh three_docs) =
    (Raise (ValueError "Invalid mode: fuzzy"), fresh three_docs) /\
  (exists rs w',
     CourseRetriever.search dot RAG "machine learning" "hybrid" 0 (q 2 1)
       (fresh three_docs) = (Ok rs, w')) /\
  (exists rs w',
     CourseRetriever.find_similar dot RAG "99999" "hybrid" 0 (q 2 1)
       (fresh three_docs) = (Ok rs, w')).
Proof.
  split; [exact invalid_mode_fuzzy|]. split; [exact valid_mode_hybrid|].
  split; [exact three_docs_wf|]. split; [exact known_code_A|].
  exact (mode_is_validated dot RAG "machine learning" "A" "99999" "fuzzy" "hybrid"
           0 (q 2 1) (fresh three_docs)
           invalid_mode_fuzzy valid_mode_hybrid three_docs_wf known_code_A).
Defined.



(** * Further properties of the retriever *)

Section SearchScores.
Context (cosine : vector -> vector -> Qc) (sv : service).







End SearchScores.

(** ** Which documents [search] returns *)

Lemma slice_prefix_take {A} (stop : Z) (l : list A) :
  slice 0 stop l = take (slice_bound (length l) stop) l.
Proof.
  unfold slice. assert (slice_bound (length l) 0 = 0%nat) as ->.
  { unfold slice_bound. rewrite decide_False by lia. simpl. lia. }
  by rewrite drop_0, Nat.sub_0_r.
Qed.

Lemma slice_NoDup {A} (start stop : Z) (l : list A) :
  NoDup l -> NoDup (slice start stop l).
Proof.
  intros H. unfold slice.
  eapply sublist_NoDup; [|apply sublist_take].
  eapply sublist_NoDup; [|apply sublist_drop]. done.
Qed.

Lemma ranking_Permutation scores : ranking scores ≡ₚ seq 0 (length scores).
Proof. unfold ranking. by rewrite reverse_Permutation, argsort_Permutation. Qed.

Lemma ranking_NoDup scores : NoDup (ranking scores).
Proof. rewrite ranking_Permutation. apply NoDup_seq. Qed.

Lemma elem_of_ranking scores i : i ∈ ranking scores <-> (i < length scores)%nat.
Proof. rewrite ranking_Permutation, elem_of_seq. lia. Qed.

Lemma lookup_codes_NoDup (codes : list string) (l : list nat) :
  NoDup codes -> NoDup l -> (forall i, i ∈ l -> (i < length codes)%nat) ->
  NoDup ((fun i => codes !! i) <$> l).
Proof.
  intros Hcodes Hl Hlt. apply NoDup_fmap_2_strong; [|done].
  intros i j Hi Hj Heq.
  destruct (lookup_lt_is_Some_2 codes i (Hlt i Hi)) as [c Hc].
  rewrite Hc in Heq. symmetry in Heq.
  exact (NoDup_lookup codes i j c Hcodes Hc Heq).
Qed.


Lemma precedes_le scores a b : precedes scores a b -> (scores !!! a <= scores !!! b)%Qc.
Proof. intros [H | [-> _]]; [by apply Qclt_le_weak | apply Qcle_refl]. Qed.




(** ** Edge values of [top_k] *)

Lemma slice_prefix_length_neg {A} (l : list A) (k : Z) :
  k < 0 -> length (slice 0 k l) = Z.to_nat (Z.max 0 (Z.of_nat (length l) + k)).
Proof.
  intros Hk. rewrite slice_prefix_take, length_take. unfold slice_bound.
  rewrite decide_True by done. lia.
Qed.

Lemma slice_tail_length_neg {A} (l : list A) (k : Z) :
  k < -1 -> l <> [] ->
  length (slice 1 (k + 1) l) = Z.to_nat (Z.max 0 (Z.of_nat (length l) + k)).
Proof.
  intros Hk Hl. unfold slice, slice_bound.
  destruct (decide (1 < 0)) as [?|_]; [lia|].
  destruct (decide (k + 1 < 0)) as [_|?]; [|lia].
  rewrite length_take, length_drop.
  destruct l; [done|]. simpl length. lia.
Qed.

(** X4.  A negative [top_k] is not rejected but read as a Python slice
    bound: over a well-formed index of [N] documents and for a valid mode,
    [search] with [top_k < 0] returns the ranking without its last
    [-top_k] entries, that is [max(0, N + top_k)] results, and
    [find_similar] on a known identifier returns nothing for
    [top_k = -1] and [max(0, N + top_k)] results for [top_k < -1]. *)
Theorem negative_top_k_drops_from_the_end (cosine : vector -> vector -> Qc)
    (sv : service) (query course_code mode : string) (top_k : Z) (alpha : Qc)
    (w : world) :
  wf_index (self w) -> valid_mode mode ->
  course_code ∈ course_codes (self w) -> top_k < 0 ->
  (exists rs w',
     CourseRetriever.search cosine sv query mode top_k alpha w = (Ok rs, w') /\
     length rs =
       Z.to_nat (Z.max 0 (Z.of_nat (length (course_codes (self w))) + top_k))) /\
  (exists rs w',
     CourseRetriever.find_similar cosine sv course_code mode top_k alpha w =
       (Ok rs, w') /\
     length rs =
       if decide (top_k = -1) then 0%nat
       else Z.to_nat (Z.max 0 (Z.of_nat (length (course_codes (self w))) + top_k))).
Proof.
  intros Hwf Hmode Hin Hk. split.
  - destruct (search_ok cosine sv query mode top_k alpha w Hwf Hmode)
      as (scores & ops & rs & Hlen & Hrun & HF).
    exists rs, (after ops w). split; [done|].
    apply Forall2_length in HF.
    by rewrite <- HF, slice_prefix_length_neg, length_ranking, Hlen.
  - destruct (find_similar_ok cosine sv course_code mode top_k alpha w Hwf Hmode Hin)
      as (scores & ops & rs & Hlen & Hrun & HF).
    exists rs, (after ops w). split; [done|].
    apply Forall2_length in HF. rewrite <- HF. case_decide as Hm1.
    + subst top_k. unfold slice, slice_bound. simpl.
      destruct (decide (1 < 0)) as [?|_]; [lia|].
      destruct (decide (0 < 0)) as [?|_]; [lia|]. done.
    + rewrite slice_tail_length_neg, length_ranking, Hlen; [done | lia |].
      intros Hnil. apply (f_equal length) in Hnil.
      rewrite length_ranking, Hlen in Hnil.
      apply list_elem_of_lookup in Hin as (i & Hi).
      apply lookup_lt_Some in Hi. simpl in Hnil. lia.
Qed.

(** ** Vector work *)

Lemma for_each_entry_frame sv scores l w :
  (for_each (CourseRetriever.result_entry sv scores) l w).2 = w.
Proof.
  induction l as [|idx l IH]; simpl; [done|].
  rewrite bind_run.
  pose proof (result_entry_frame sv scores idx w) as H1.
  destruct (CourseRetriever.result_entry sv scores idx w) as [[r|e] w1];
    simpl in *; subst; [|done].
  rewrite bind_run.
  destruct (for_each _ l w) as [[rs|e] w1]; simpl in *; by subst.
Qed.


Section FindSimilarScores.
Context (cosine : vector -> vector -> Qc) (sv : service).

Lemma find_similar_run course_code mode top_k alpha w query_idx :
  wf_index (self w) -> valid_mode mode ->
  list_index course_code (course_codes (self w)) = Some query_idx ->
  let scores := similar_scores cosine (self w) query_idx mode alpha in
  CourseRetriever.find_similar cosine sv course_code mode top_k alpha w =
  for_each (CourseRetriever.result_entry sv scores)
    (slice 1 (top_k + 1) (ranking scores)) (after (similar_ops mode) w).
Proof.
  intros Hwf Hmode Hqi.
  pose proof (list_index_lookup _ _ _ Hqi) as Hlt. apply lookup_lt_Some in Hlt.
  destruct (lookup_lt_is_Some_2 (tfidf_matrix (self w)) query_idx) as [qv Hqv].
  { rewrite (wf_tfidf _ Hwf). lia. }
  destruct (lookup_lt_is_Some_2 (embeddings (self w)) query_idx) as [qe Hqe].
  { rewrite (wf_embeddings _ Hwf). lia. }
  unfold similar_scores, similar_ops.
  rewrite (list_lookup_total_correct _ _ _ Hqv), (list_lookup_total_correct _ _ _ Hqe).
  unfold CourseRetriever.find_similar. rewrite bind_run. unfold read at 1.
  rewrite Hqi. rewrite bind_run.
  destruct Hmode as [-> | [-> | ->]].
  - rewrite decide_True by done.
    unfold mbind, M_bind, read, lift, call, getitem. simpl. rewrite Hqv.
    unfold flatten, cosine_similarity. simpl. by rewrite app_nil_r.
  - rewrite decide_False, decide_True by done.
    unfold mbind, M_bind, read, lift, call, getitem. simpl. rewrite Hqe.
    unfold flatten, cosine_similarity. simpl. by rewrite app_nil_r.
  - rewrite !decide_False, decide_True by done.
    unfold mbind, M_bind, read, lift, call, getitem. simpl. rewrite Hqv. simpl.
    rewrite Hqe. unfold flatten, cosine_similarity. simpl. rewrite !app_nil_r.
    fold (similarities cosine qv (tfidf_matrix (self w))).
    fold (similarities cosine qe (embeddings (self w))).
    rewrite np_add_fused.
    2:{ rewrite !length_similarities.
        by rewrite (wf_tfidf _ Hwf), (wf_embeddings _ Hwf). }
    by rewrite <- app_assoc.
Qed.

Lemma length_similar_scores ix query_idx mode alpha :
  wf_index ix ->
  length (similar_scores cosine ix query_idx mode alpha) = length (course_codes ix).
Proof.
  intros Hwf. unfold similar_scores. repeat case_decide.
  - rewrite length_similarities. apply Hwf.
  - rewrite length_similarities. apply Hwf.
  - rewrite length_fused, length_similarities; rewrite ?length_similarities.
    + apply Hwf.
    + by rewrite (wf_tfidf _ Hwf), (wf_embeddings _ Hwf).
Qed.

Lemma find_similar_ok_scores course_code mode top_k alpha w query_idx :
  wf_index (self w) -> valid_mode mode ->
  list_index course_code (course_codes (self w)) = Some query_idx ->
  let scores := similar_scores cosine (self w) query_idx mode alpha in
  exists rs,
    CourseRetriever.find_similar cosine sv course_code mode top_k alpha w =
      (Ok rs, after (similar_ops mode) w) /\
    Forall2 (reports sv (self w) scores) (slice 1 (top_k + 1) (ranking scores)) rs.
Proof.
  intros Hwf Hmode Hqi scores.
  rewrite (find_similar_run course_code mode top_k alpha w query_idx Hwf Hmode Hqi).
  apply (results_ok sv scores 1 (top_k + 1) (after (similar_ops mode) w) Hwf).
  by apply length_similar_scores.
Qed.

End FindSimilarScores.

(** X6.  [find_similar] never calls the vectorizer nor the encoder: on a
    well-formed index it ranks with the stored row and embedding of the
    source document, so for a known identifier and a valid mode its only
    vector work is one [cosine_similarity] call per index used (two in
    hybrid mode), and for an unknown identifier it does none. *)
Theorem find_similar_vector_work (cosine : vector -> vector -> Qc)
    (sv : service) (course_code mode : string) (top_k : Z) (alpha : Qc)
    (w : world) :
  wf_index (self w) -> valid_mode mode ->
  (CourseRetriever.find_similar cosine sv course_code mode top_k alpha w).2 =
  if decide (course_code ∈ course_codes (self w))
  then after (similar_ops mode) w else w.
Proof.
  intros Hwf Hmode. case_decide as Hin.
  - destruct (list_index course_code (course_codes (self w))) as [qi|] eqn:Hqi;
      [|by apply list_index_None in Hqi].
    pose proof (find_similar_run cosine sv course_code mode top_k alpha w qi
                  Hwf Hmode Hqi) as H.
    simpl in H. rewrite H. apply for_each_entry_frame.
  - by rewrite find_similar_unknown.
Qed.

Lemma ranking_head_dominant scores qi :
  (qi < length scores)%nat ->
  (forall j, (j < length scores)%nat -> j <> qi ->
             (scores !!! j < scores !!! qi)%Qc) ->
  ranking scores !! 0%nat = Some qi.
Proof.
  intros Hqi Hdom.
  destruct (lookup_lt_is_Some_2 (ranking scores) 0) as [h Hh].
  { rewrite length_ranking. lia. }
  destruct (decide (h = qi)) as [->|Hne]; [done|].
  assert (Hin : qi ∈ ranking scores) by (by apply elem_of_ranking).
  apply list_elem_of_lookup in Hin as (p & Hp).
  destruct p as [|p]; [congruence|].
  pose proof (ranking_pairwise scores 0%nat (S p) h qi ltac:(lia) Hh Hp) as Hpre.
  apply precedes_le in Hpre.
  assert (Hhlt : (h < length scores)%nat).
  { apply elem_of_ranking. by eapply list_elem_of_lookup_2. }
  specialize (Hdom h Hhlt Hne).
  exfalso. by apply (Qclt_not_le _ _ Hdom).
Qed.

Lemma slice_tail_not_head {A} (l : list A) (stop : Z) x :
  NoDup l -> l !! 0%nat = Some x -> x ∉ slice 1 stop l.
Proof.
  intros Hnd Hx Hin. unfold slice in Hin.
  destruct l as [|y l]; [done|]. simpl in Hx. injection Hx as ->.
  apply NoDup_cons_1_1 in Hnd. apply Hnd.
  apply elem_of_take in Hin as (i & Hi & _).
  rewrite lookup_drop in Hi.
  unfold slice_bound in Hi. rewrite decide_False in Hi by lia.
  simpl in Hi. replace (Nat.min 1 (S (length l))) with 1%nat in Hi by lia.
  simpl in Hi. by eapply list_elem_of_lookup_2.
Qed.

(** X7.  When the source document's own score is strictly the highest of
    the index (as it is when no other document has the same vectors),
    [find_similar] does leave it out: over a well-formed index and for a
    valid mode, no result carries the source identifier. *)
Theorem find_similar_excludes_dominant_source (cosine : vector -> vector -> Qc)
    (sv : service) (course_code mode : string) (top_k : Z) (alpha : Qc)
    (w : world) (query_idx : nat) :
  wf_index (self w) -> valid_mode mode ->
  course_codes (self w) !! query_idx = Some course_code ->
  (forall j, (j < length (course_codes (self w)))%nat -> j <> query_idx ->
     (similar_scores cosine (self w) query_idx mode alpha !!! j <
      similar_scores cosine (self w) query_idx mode alpha !!! query_idx)%Qc) ->
  exists rs w',
    CourseRetriever.find_similar cosine sv course_code mode top_k alpha w =
      (Ok rs, w') /\
    Some course_code ∉ (result_id sv <$> rs).
Proof.
  intros Hwf Hmode Hcode Hdom.
  assert (Hqi : list_index course_code (course_codes (self w)) = Some query_idx).
  { apply list_index_NoDup; [apply Hwf | done]. }
  destruct (find_similar_ok_scores cosine sv course_code mode top_k alpha w
              query_idx Hwf Hmode Hqi) as (rs & Hrun & HF).
  exists rs, (after (similar_ops mode) w). split; [done|].
  set (scores := similar_scores cosine (self w) query_idx mode alpha) in *.
  assert (Hlen : length scores = length (course_codes (self w))).
  { unfold scores. by apply length_similar_scores. }
  assert (Hhead : ranking scores !! 0%nat = Some query_idx).
  { apply ranking_head_dominant.
    - rewrite Hlen. by eapply lookup_lt_Some.
    - intros j Hj. apply Hdom. by rewrite <- Hlen. }
  rewrite (reports_ids _ _ _ _ _ HF).
  intros Hin. apply list_elem_of_fmap in Hin as (idx & Hidx & Hsl).
  assert (idx = query_idx) as ->.
  { symmetry in Hidx. exact (NoDup_lookup _ _ _ _ (wf_unique _ Hwf) Hidx Hcode). }
  revert Hsl. apply slice_tail_not_head; [apply ranking_NoDup | done].
Qed.

(** X8.  [find_similar] results are ordered like [search] results: over a
    well-formed index, for a known identifier and a valid mode, scores
    never increase along the results, and no document is returned twice. *)
Theorem find_similar_sorted_distinct (cosine : vector -> vector -> Qc)
    (sv : service) (course_code mode : string) (top_k : Z) (alpha : Qc)
    (w : world) :
  wf_index (self w) -> valid_mode mode ->
  course_code ∈ course_codes (self w) ->
  exists rs w',
    CourseRetriever.find_similar cosine sv course_code mode top_k alpha w =
      (Ok rs, w') /\
    pairwise (fun r1 r2 => (result_score r2 <= result_score r1)%Qc) rs /\
    NoDup (result_id sv <$> rs).
Proof.
  intros Hwf Hmode Hin.
  destruct (find_similar_ok cosine sv course_code mode top_k alpha w Hwf Hmode Hin)
    as (scores & ops & rs & Hlen & Hrun & HF).
  exists rs, (after ops w). split; [done|]. split.
  - eapply pairwise_Forall2; [| exact HF | apply pairwise_slice, ranking_pairwise].
    intros a b r1 r2 (Ha & _) (Hb & _) Hab.
    apply list_lookup_total_correct in Ha, Hb. rewrite <- Ha, <- Hb.
    by apply precedes_le.
  - rewrite (reports_ids _ _ _ _ _ HF).
    apply lookup_codes_NoDup; [apply Hwf | apply slice_NoDup, ranking_NoDup |].
    intros i Hi. apply elem_of_slice, elem_of_ranking in Hi. lia.
Qed.


(** ** The further statements at concrete inputs *)




Lemma negative_top_k_drops_from_the_end_witness :
  wf_index (self (fresh three_docs)) /\ valid_mode "hybrid" /\
  "A" ∈ course_codes (self (fresh three_docs)) /\ -2 < 0 /\
  (exists rs w',
     CourseRetriever.search dot RAG "machine learning" "hybrid" (-2) (q 1 2)
       (fresh three_docs) = (Ok rs, w') /\
     length rs =
       Z.to_nat (Z.max 0
         (Z.of_nat (length (course_codes (self (fresh three_docs)))) + -2))) /\
  (exists rs w',
     CourseRetriever.find_similar dot RAG "A" "hybrid" (-2) (q 1 2)
       (fresh three_docs) = (Ok rs, w') /\
     length rs =
       if decide (-2 = -1) then 0%nat
       else Z.to_nat (Z.max 0
              (Z.of_nat (length (course_codes (self (fresh three_docs)))) + -2))).
Proof.
  assert (Hneg : -2 < 0) by lia.
  split; [exact three_docs_wf|]. split; [exact valid_mode_hybrid|].
  split; [exact known_code_A|]. split; [exact Hneg|].
  exact (negative_top_k_drops_from_the_end dot RAG "machine learning" "A" "hybrid"
           (-2) (q 1 2) (fresh three_docs)
           three_docs_wf valid_mode_hybrid known_code_A Hneg).
Defined.


Lemma find_similar_vector_work_witness :
  wf_index (self (fresh three_docs)) /\ valid_mode "hybrid" /\
  (CourseRetriever.find_similar dot RAG "A" "hybrid" 2 (q 1 2)
     (fresh three_docs)).2 =
  if decide ("A" ∈ course_codes (self (fresh three_docs)))
  then after (similar_ops "hybrid") (fresh three_docs) else fresh three_docs.
Proof.
  split; [exact three_docs_wf|]. split; [exact valid_mode_hybrid|].
  exact (find_similar_vector_work dot RAG "A" "hybrid" 2 (q 1 2)
           (fresh three_docs) three_docs_wf valid_mode_hybrid).
Defined.

Lemma valid_mode_dense : valid_mode "dense".
Proof. right. by left. Defined.

Lemma A_is_first : course_codes (self (fresh three_docs)) !! 0%nat = Some "A".
Proof. reflexivity. Defined.

Lemma A_dominates_dense :
  forall j, (j < length (course_codes (self (fresh three_docs))))%nat -> j <> 0%nat ->
    (similar_scores dot (self (fresh three_docs)) 0 "dense" (q 1 2) !!! j <
     similar_scores dot (self (fresh three_docs)) 0 "dense" (q 1 2) !!! 0%nat)%Qc.
Proof.
  intros j Hj Hne. simpl in Hj.
  destruct j as [|[|[|j]]]; [done | | | lia]; by vm_compute.
Defined.

Lemma find_similar_excludes_dominant_source_witness :
  wf_index (self (fresh three_docs)) /\ valid_mode "dense" /\
  course_codes (self (fresh three_docs)) !! 0%nat = Some "A" /\
  (forall j, (j < length (course_codes (self (fresh three_docs))))%nat ->
     j <> 0%nat ->
     (similar_scores dot (self (fresh three_docs)) 0 "dense" (q 1 2) !!! j <
      similar_scores dot (self (fresh three_docs)) 0 "dense" (q 1 2) !!! 0%nat)%Qc) /\
  exists rs w',
    CourseRetriever.find_similar dot RAG "A" "dense" 10 (q 1 2)
      (fresh three_docs) = (Ok rs, w') /\
    Some "A" ∉ (result_id RAG <$> rs).
Proof.
  split; [exact three_docs_wf|]. split; [exact valid_mode_dense|].
  split; [exact A_is_first|]. split; [exact A_dominates_dense|].
  exact (find_similar_excludes_dominant_source dot RAG "A" "dense" 10 (q 1 2)
           (fresh three_docs) 0 three_docs_wf valid_mode_dense A_is_first
           A_dominates_dense).
Defined.

Lemma find_similar_sorted_distinct_witness :
  wf_index (self (fresh three_docs)) /\ valid_mode "hybrid" /\
  "A" ∈ course_codes (self (fresh three_docs)) /\
  exists rs w',
    CourseRetriever.find_similar dot RAG "A" "hybrid" 10 (q 1 2)
      (fresh three_docs) = (Ok rs, w') /\
    pairwise (fun r1 r2 => (result_score r2 <= result_score r1)%Qc) rs /\
    NoDup (result_id RAG <$> rs).
Proof.
  split; [exact three_docs_wf|]. split; [exact valid_mode_hybrid|].
  split; [exact known_code_A|].
  exact (find_similar_sorted_distinct dot RAG "A" "hybrid" 10 (q 1 2)
           (fresh three_docs) three_docs_wf valid_mode_hybrid known_code_A).
Defined.

